(** * txtai: API application startup and the LLM pipeline facade

    A shallow embedding of

    - [src/python/txtai/api/application.py]: the module globals [app] and
      [INSTANCE], the accessor [get] and the FastAPI startup hook [start];
    - [src/python/txtai/pipeline/llm/llm.py]: the class [LLM]
      ([__init__] and [__call__]).

    Python dictionaries are finite maps ([gmap]), sets of capability names
    are finite sets ([gset]); a call that may raise returns an [outcome];
    the startup hook, which mutates module globals and may raise half way,
    lives in a state-and-exception monad in which the state survives a
    raised exception, as it does in Python. *)

From Stdlib Require Import Ascii.
From stdpp Require Import gmap strings list fin_maps.

#[local] Set Warnings "-clear-no-such-hyp".

Open Scope string_scope.
Open Scope list_scope.

(** ** Python outcomes *)

(** Exceptions. The first two are the error taxonomy of the design
    document; every other Python exception is a [PyError] carrying its
    class name and message. *)
Inductive Exception : Type :=
| ConfigurationError (name : string)
| BackendUnavailableError (family : string) (cause : Exception)
| PyError (cls msg : string).

Inductive outcome (A : Type) : Type :=
| Returns (a : A)
| Raises (e : Exception).
Arguments Returns {A} a.
Arguments Raises {A} e.

(** Truthiness of an optional string, as [x if x else ...] and [if x:]
    test it: [None] and the empty string are falsy. The truthy value is
    handed back. *)
Definition truthy (v : option string) : option string :=
  match v with
  | Some s => if decide (s = "") then None else Some s
  | None => None
  end.

(** [s.split(sep)] for a one-character separator: every occurrence of
    [sep] cuts, so [n] separators give [n + 1] pieces, empty ones
    included. *)
Fixpoint split (sep : ascii) (s : string) : list string :=
  match s with
  | EmptyString => [EmptyString]
  | String c rest =>
      if decide (c = sep) then EmptyString :: split sep rest
      else match split sep rest with
           | w :: ws => String c w :: ws
           | [] => [String c EmptyString]
           end
  end.

(** The number of occurrences of a character in a string. *)
Fixpoint occurrences (c : ascii) (s : string) : nat :=
  match s with
  | EmptyString => 0
  | String c' rest =>
      (if decide (c' = c) then 1 else 0) + occurrences c rest
  end.

(** ** api/application.py *)

Module Application.

(** The router objects of the [routers] package ([caption.router], ...,
    [workflow.router]). *)
Inductive Router : Type :=
| caption_router
| embeddings_router
| extractor_router
| labels_router
| objects_router
| segmentation_router
| similarity_router
| summary_router
| tabular_router
| textractor_router
| transcription_router
| translation_router
| workflow_router.

Global Instance Router_eq_dec : EqDecision Router.
Proof. solve_decision. Defined.

(** [app = FastAPI()]: what the startup hook observes of the application
    object is the sequence of routers included into it. *)
Record FastAPI : Type := mkFastAPI { included : list Router }.

(** Observable steps of the extension loop, in the order they complete:
    [Factory.get(name)] returned, the class was instantiated, the instance
    was called with [root] and returned. *)
Inductive Event : Type :=
| Resolved (name : string)
| Instantiated (name : string)
| Invoked (name : string) (root : FastAPI).

(** The kind of a step and the extension it belongs to; [times] counts
    the steps of one kind logged for one name. *)
Inductive Step : Type := resolving | instantiating | invoking.

Global Instance Step_eq_dec : EqDecision Step.
Proof. solve_decision. Defined.

Definition step (ev : Event) : Step * string :=
  match ev with
  | Resolved name => (resolving, name)
  | Instantiated name => (instantiating, name)
  | Invoked name _ => (invoking, name)
  end.

Definition times (kind : Step) (name : string) (tr : list Event) : nat :=
  length (filter (λ ev, step ev = (kind, name)) tr).

(** An extension instance is called with the application as its only
    argument and may change it or raise; an extension class is built with
    no argument and may raise. *)
Definition Extension : Type := FastAPI → outcome FastAPI.
Definition ExtensionClass : Type := outcome Extension.

(** Router definitions (lines 50-64). *)
Definition routers : list (string * Router) :=
  [ ("caption", caption_router);
    ("embeddings", embeddings_router);
    ("extractor", extractor_router);
    ("labels", labels_router);
    ("objects", objects_router);
    ("segmentation", segmentation_router);
    ("similarity", similarity_router);
    ("summary", summary_router);
    ("tabular", tabular_router);
    ("textractor", textractor_router);
    ("transcription", transcription_router);
    ("translation", translation_router);
    ("workflow", workflow_router) ].

(** The name under which [routers] lists a router. *)
Definition router_name (r : Router) : string :=
  match r with
  | caption_router => "caption"
  | embeddings_router => "embeddings"
  | extractor_router => "extractor"
  | labels_router => "labels"
  | objects_router => "objects"
  | segmentation_router => "segmentation"
  | similarity_router => "similarity"
  | summary_router => "summary"
  | tabular_router => "tabular"
  | textractor_router => "textractor"
  | transcription_router => "transcription"
  | translation_router => "translation"
  | workflow_router => "workflow"
  end.

Section Startup.

(** Per-capability settings and the [API] instance are opaque here. *)
Context {Settings API : Type}.

(** Collaborators that live outside the two modules: [API.read],
    the constructor [API(config)], [Factory.create], [Factory.get] and
    the built-in [str.strip]. *)
Variable API_read : option string → outcome (gmap string Settings).
Variable API_new : gmap string Settings → outcome API.
Variable Factory_create : gmap string Settings → string → outcome API.
Variable Factory_get : string → outcome ExtensionClass.
Variable strip : string → string.

(** Module state: the global [INSTANCE], the object [app], and the log
    of extension steps completed so far (instrumentation, the role a
    recording test double plays). *)
Record State : Type := mkState {
  INSTANCE : option API;
  app : FastAPI;
  trace : list Event
}.

(** Lines 16 and 19: the state when the module has been imported. *)
Definition boot : State :=
  {| INSTANCE := None; app := mkFastAPI []; trace := [] |}.

(** State and exceptions: a raised exception stops the computation and
    keeps the state reached so far. *)
Definition M (A : Type) : Type := State → outcome A * State.

Definition ret {A} (a : A) : M A := λ s, (Returns a, s).

Definition bind {A B} (m : M A) (k : A → M B) : M B :=
  λ s, match m s with
       | (Returns a, s') => k a s'
       | (Raises e, s') => (Raises e, s')
       end.

Definition lift {A} (o : outcome A) : M A := λ s, (o, s).

Definition log (ev : Event) : M unit :=
  λ s, (Returns tt,
        {| INSTANCE := INSTANCE s; app := app s; trace := trace s ++ [ev] |}).

Definition set_INSTANCE (i : API) : M unit :=
  λ s, (Returns tt,
        {| INSTANCE := Some i; app := app s; trace := trace s |}).

Definition set_app (a : FastAPI) : M unit :=
  λ s, (Returns tt,
        {| INSTANCE := INSTANCE s; app := a; trace := trace s |}).

Definition when (b : bool) (m : M unit) : M unit :=
  if b then m else ret tt.

Fixpoint for_ {A} (l : list A) (body : A → M unit) : M unit :=
  match l with
  | [] => ret tt
  | x :: l' => bind (body x) (λ _, for_ l' body)
  end.

Notation "x <- m ; k" := (bind m (λ x, k))
  (at level 100, m at next level, right associativity,
   format "'[v' x  <-  m ; '/' k ']'").
Notation "m ;; k" := (bind m (λ _, k))
  (at level 100, right associativity, format "'[v' m ;; '/' k ']'").

(** [def get(): return INSTANCE] *)
Definition get : M (option API) := λ s, (Returns (INSTANCE s), s).

(** [app.include_router(router)] *)
Definition include_router (r : Router) : M unit :=
  λ s, set_app (mkFastAPI (included (app s) ++ [r])) s.

(** [name in config] *)
Definition contains (config : gmap string Settings) (name : string) : bool :=
  bool_decide (is_Some (config !! name)).

(** Lines 66-77 of [start]: conditional routes, then the two special
    cases. *)
Definition compose (config : gmap string Settings) : M unit :=
  for_ routers (λ '(name, router),
    when (contains config name) (include_router router));;
  when (contains config "cluster" && negb (contains config "embeddings"))
    (include_router embeddings_router);;
  when (contains config "embeddings" && negb (contains config "similarity"))
    (include_router similarity_router).

(** The routers [compose] includes, in order, read off as a list. *)
Definition registered (config : gmap string Settings) : list Router :=
  (filter (λ entry, contains config entry.1) routers).*2
  ++ (if contains config "cluster" && negb (contains config "embeddings")
      then [embeddings_router] else [])
  ++ (if contains config "embeddings" && negb (contains config "similarity")
      then [similarity_router] else []).

(** The capabilities present once composition is done: the declared
    keys, which the [API] instance is built from, and the names of the
    routers that were included. *)
Definition capabilities (config : gmap string Settings) : gset string :=
  dom config ∪ list_to_set (router_name <$> registered config).

(** The state with [rs] included into [app], nothing else touched. *)
Definition with_routers (rs : list Router) (s : State) : State :=
  {| INSTANCE := INSTANCE s;
     app := mkFastAPI (included (app s) ++ rs);
     trace := trace s |}.

(** The state with [a] for the application and [evs] logged. *)
Definition moved (a : FastAPI) (evs : list Event) (s : State) : State :=
  {| INSTANCE := INSTANCE s; app := a; trace := trace s ++ evs |}.

(** Lines 82-85 of [start]: the body of [for extension in ...]. *)
Definition run_extension (extension : string) : M unit :=
  let name := strip extension in
  cls <- lift (Factory_get name);
  log (Resolved name);;
  instance <- lift cls;
  log (Instantiated name);;
  (λ s,
     match instance (app s) with
     | Returns a => (set_app a;; log (Invoked name (app s))) s
     | Raises e => (Raises e, s)
     end).

Definition run_extensions (names : list string) : M unit :=
  for_ names run_extension.

(** The application as the extension named by one list entry leaves
    it (unchanged if the entry does not run to its end). *)
Definition after (extension : string) (root : FastAPI) : FastAPI :=
  match Factory_get (strip extension) with
  | Returns (Returns instance) =>
      match instance root with
      | Returns a => a
      | Raises _ => root
      end
  | _ => root
  end.

(** The sequential schedule: entry by entry in list order, the three
    steps of one entry before any step of the next, each instance
    called with the application as its predecessors left it. *)
Fixpoint schedule (names : list string) (root : FastAPI) : list Event :=
  match names with
  | [] => []
  | extension :: names' =>
      let name := strip extension in
      Resolved name :: Instantiated name :: Invoked name root
        :: schedule names' (after extension root)
  end.

(** [start()], with [os.getenv] reading [environ]. *)
Definition start (environ : gmap string string) : M unit :=
  config <- lift (API_read (environ !! "CONFIG"));
  instance <- lift (match truthy (environ !! "API_CLASS") with
                    | Some api => Factory_create config api
                    | None => API_new config
                    end);
  set_INSTANCE instance;;
  compose config;;
  match truthy (environ !! "EXTENSIONS") with
  | Some extensions => run_extensions (split ","%char extensions)
  | None => ret tt
  end.

End Startup.

(** Resolution as a function of the declared names alone: composition
    only tests which keys are present, so the settings are immaterial and
    a declared set stands for the configuration holding exactly those
    keys. *)
Definition resolve (declared : gset string) : gset string :=
  capabilities (gset_to_gmap tt declared).

(** *** The capability graph of the design document

    The two special cases of [start] as data, and resolution in the
    document's words: an edge adds [implied] when its whole [trigger] is
    declared and [implied] is not; every edge is tried against the
    declared set itself. *)
Definition capability_graph : list (gset string * string) :=
  [ ({["cluster"]}, "embeddings");
    ({["embeddings"]}, "similarity") ].

Definition resolve_spec (graph : list (gset string * string))
    (declared : gset string) : gset string :=
  declared ∪
  list_to_set (filter (λ edge, edge.1 ⊆ declared ∧ (edge.2 ∉ declared)) graph).*2.

(** Modelled from the spec: the by-name lookup of extension units
    ([Factory.get], in [api/factory.py], is not among the sources). A
    registry from names to zero-argument constructible units, queried by
    exact match; a name it does not hold is a [ConfigurationError] naming
    the unresolved extension. *)
Definition Factory_get_spec (registry : gmap string ExtensionClass)
    (name : string) : outcome ExtensionClass :=
  match registry !! name with
  | Some cls => Returns cls
  | None => Raises (ConfigurationError name)
  end.

End Application.

(** ** pipeline/llm/llm.py *)

Module LLM.

Section Facade.

(** Keyword-argument values, input texts and generated outputs are
    opaque. *)
Context {Value Text Output : Type}.

(** A generation backend instance, called as
    [generator(text, maxlength, **kwargs)]. *)
Definition Generation : Type :=
  Text → Z → gmap string Value → outcome Output.

(** [GenerationFactory.create(path, method, **kwargs)], from the sibling
    module [factory]. *)
Variable GenerationFactory_create :
  string → option string → gmap string Value → outcome Generation.

(** [class LLM]: the one attribute is [self.generator]. *)
Record LLM : Type := mkLLM { generator : Generation }.

(** [self.generator = ...]: the object holds what the factory returned;
    an exception of the factory leaves [__init__] as it is. *)
Definition assign_generator (created : outcome Generation) : outcome LLM :=
  match created with
  | Returns g => Returns (mkLLM g)
  | Raises e => Raises e
  end.

(** [LLM.__init__(self, path=None, method=None, **kwargs)] *)
Definition __init__ (path method : option string)
    (kwargs : gmap string Value) : outcome LLM :=
  let path := match truthy path with
              | Some p => p
              | None => "google/flan-t5-base"
              end in
  assign_generator (GenerationFactory_create path method kwargs).

(** [LLM.__call__(self, text, maxlength=512, **kwargs)]; [None] is an
    omitted [maxlength]. *)
Definition __call__ (self : LLM) (text : Text) (maxlength : option Z)
    (kwargs : gmap string Value) : outcome Output :=
  generator self text (default 512%Z maxlength) kwargs.

End Facade.

Section Resolver.

Context {Value Text Output : Type}.

(** The family markers, each a test on the identifier with the family
    it selects, the default family, and the registry of backend
    constructors by family name. *)
Variable markers : list ((string → bool) * string).
Variable default_family : string.
Variable registry :
  gmap string (string → gmap string Value → outcome (@Generation Value Text Output)).

(** Modelled from the spec: IdentifierInference ([GenerationFactory]'s
    method inference, in [pipeline/llm/factory.py], is not among the
    sources). A pure total function: the first marker the identifier
    shows selects the family, and an identifier with no marker gets the
    default family. *)
Definition infer (identifier : string) : string :=
  match List.find (λ marker, marker.1 identifier) markers with
  | Some marker => marker.2
  | None => default_family
  end.

(** Modelled from the spec: BackendResolver ([GenerationFactory.create],
    in [pipeline/llm/factory.py], is not among the sources). The method
    is inferred when not supplied; a family the registry does not know
    is a [ConfigurationError] naming it; a failure inside the backend's
    constructor comes out as a [BackendUnavailableError] with the family
    and the cause. *)
Definition resolve (identifier : string) (method : option string)
    (options : gmap string Value) : outcome (@Generation Value Text Output) :=
  let family := match method with
                | Some m => m
                | None => infer identifier
                end in
  match registry !! family with
  | None => Raises (ConfigurationError family)
  | Some construct =>
      match construct identifier options with
      | Returns backend => Returns backend
      | Raises cause => Raises (BackendUnavailableError family cause)
      end
  end.

End Resolver.

End LLM.

(** ** Test doubles

    Concrete collaborators to run the definitions on. *)

Module Doubles.
Import Application.

(** An extension that includes one more router, and one that raises. *)
Definition adds (r : Router) : Extension :=
  λ root, Returns (mkFastAPI (included root ++ [r])).

Definition broken : Extension :=
  λ _, Raises (PyError "RuntimeError" "broken extension").

(** Two resolvable extensions. *)
Definition extensions : gmap string ExtensionClass :=
  {[ "a" := Returns (adds workflow_router);
     "b" := Returns (adds labels_router) ]}.

(** A [Factory.get] that knows these two and fails to import any other
    name. *)
Definition Factory_get (name : string) : outcome ExtensionClass :=
  match extensions !! name with
  | Some cls => Returns cls
  | None => Raises (PyError "ModuleNotFoundError" name)
  end.

(** The same, with a third extension [x] whose call raises. *)
Definition Factory_get_broken (name : string) : outcome ExtensionClass :=
  if decide (name = "x") then Returns (Returns broken) else Factory_get name.

(** A [Factory.create] and a constructor that raise. *)
Definition Factory_create_fails (_ : gmap string unit) (api : string)
    : outcome (gmap string unit) :=
  Raises (PyError "ModuleNotFoundError" api).

Definition API_new_fails (_ : gmap string unit) : outcome (gmap string unit) :=
  Raises (PyError "ImportError" "pipeline dependencies are missing").

(** A configuration that declares every name of the router table. *)
Definition everything : gmap string unit :=
  list_to_map ((λ entry : string * Router, (entry.1, tt)) <$> routers).

(** A [Factory.create] whose instance records the class name it was
    asked for. *)
Definition Factory_create_named (config : gmap string unit) (api : string)
    : outcome (gmap string unit) :=
  Returns (<[api := tt]> config).

(** Strips blanks on both sides; stands in for [str.strip]. *)
Fixpoint lstrip (s : string) : string :=
  match s with
  | String " " rest => lstrip rest
  | _ => s
  end.

Fixpoint rstrip (s : string) : string :=
  match s with
  | EmptyString => EmptyString
  | String c rest =>
      match rstrip rest with
      | EmptyString => if decide (c = " "%char) then EmptyString
                       else String c EmptyString
      | kept => String c kept
      end
  end.

Definition strip (s : string) : string := rstrip (lstrip s).

(** [API.read] yields the one configuration whatever [CONFIG] says; the
    instance is the configuration it was built from. *)
Definition settings : gmap string unit :=
  {[ "embeddings" := tt; "workflow" := tt ]}.

Definition API_read (_ : option string) : outcome (gmap string unit) :=
  Returns settings.

Definition API_new (config : gmap string unit) : outcome (gmap string unit) :=
  Returns config.

Definition Factory_create (config : gmap string unit) (_ : string)
    : outcome (gmap string unit) :=
  Returns config.

(** A backend that echoes its input, constructors for three families
    (one of them failing), and one marker: identifiers under [openai/]
    select the remote family. *)
Definition echo : @LLM.Generation string string string :=
  λ text _ _, Returns text.

Definition picky : @LLM.Generation string string string :=
  λ text maxlength _,
    if decide (maxlength < 0)%Z
    then Raises (PyError "ValueError" "negative maxlength")
    else Returns text.

Definition backends :
    gmap string (string → gmap string string
                 → outcome (@LLM.Generation string string string)) :=
  {[ "transformers" := λ _ _, Returns echo;
     "litellm" := λ _ _, Returns picky;
     "llama.cpp" := λ _ _, Raises (PyError "ImportError" "llama.cpp is not available") ]}.

Definition family_markers : list ((string → bool) * string) :=
  [ (String.prefix "openai/", "litellm") ].

End Doubles.

(** * Sanity checks of the Python helpers *)

Example split_keeps_empty_pieces :
  split ","%char "a, b,,c" = ["a"; " b"; ""; "c"]
  ∧ split ","%char "solo" = ["solo"]
  ∧ split ","%char "a," = ["a"; ""].
Proof. by split_and!. Qed.

Example truthy_cases :
  truthy None = None ∧ truthy (Some "") = None ∧ truthy (Some "x") = Some "x".
Proof. by split_and!. Qed.

Example strip_double_cases :
  Doubles.strip "  a.b.Ext " = "a.b.Ext" ∧ Doubles.strip "a b" = "a b"
  ∧ Doubles.strip "   " = "".
Proof. by split_and!. Qed.

(** * Properties of the startup hook *)

Module ApplicationFacts.
Import Application.

Section Composition.

Context {Settings API : Type}.
Implicit Types (config : gmap string Settings) (s : @State API).

Lemma with_routers_nil s : with_routers [] s = s.
Proof.
  destruct s as [i [rs] tr]. unfold with_routers; simpl.
  by rewrite app_nil_r.
Qed.

Lemma with_routers_app rs1 rs2 s :
  with_routers rs2 (with_routers rs1 s) = with_routers (rs1 ++ rs2) s.
Proof. unfold with_routers; simpl. by rewrite app_assoc. Qed.

Lemma include_router_run r s :
  include_router r s = (Returns tt, with_routers [r] s).
Proof. reflexivity. Qed.

Lemma when_include_run (b : bool) r s :
  when b (include_router r) s
  = (Returns tt, with_routers (if b then [r] else []) s).
Proof. destruct b; simpl; [done | by rewrite with_routers_nil]. Qed.

(** The conditional loop over a router table includes the routers of
    the entries whose name is a key, in table order. *)
Lemma loop_run config (table : list (string * Router)) s :
  for_ table (λ '(name, router),
    when (contains config name) (include_router router)) s
  = (Returns tt,
     with_routers (filter (λ entry, contains config entry.1) table).*2 s).
Proof.
  revert s. induction table as [|[name router] table IH]; intros s.
  - simpl. by rewrite with_routers_nil.
  - simpl. unfold bind. rewrite when_include_run, IH, with_routers_app.
    rewrite filter_cons. simpl.
    by destruct (contains config name).
Qed.

(** [compose] never raises and includes exactly [registered config]. *)
Lemma compose_run config s :
  compose config s = (Returns tt, with_routers (registered config) s).
Proof.
  unfold compose, bind. rewrite loop_run.
  by rewrite !when_include_run, !with_routers_app.
Qed.

Lemma contains_dom config name :
  contains config name = bool_decide (name ∈ dom config).
Proof. unfold contains. apply bool_decide_ext. by rewrite elem_of_dom. Qed.

Lemma routers_named :
  Forall (λ entry : string * Router, router_name entry.2 = entry.1) routers.
Proof. repeat constructor. Qed.

Lemma routers_distinct : NoDup routers.*2.
Proof. apply (bool_decide_unpack (NoDup routers.*2)). by vm_compute. Qed.

(** The loop only includes routers of declared names. *)
Lemma loop_names_declared config name :
  name ∈ router_name <$> (filter (λ entry, contains config entry.1) routers).*2 →
  name ∈ dom config.
Proof.
  rewrite <- list_fmap_compose. intros [[n r] [-> Hin]]%list_elem_of_fmap.
  apply list_elem_of_filter in Hin as [Hc Hin]. simpl in *.
  pose proof routers_named as Hall. rewrite Forall_forall in Hall.
  specialize (Hall _ Hin). simpl in *. rewrite Hall.
  rewrite contains_dom in Hc. by apply bool_decide_unpack in Hc.
Qed.

Lemma capabilities_unfold config :
  capabilities config =
  dom config
  ∪ (if bool_decide ("cluster" ∈ dom config)
        && negb (bool_decide ("embeddings" ∈ dom config))
     then {["embeddings"]} else ∅)
  ∪ (if bool_decide ("embeddings" ∈ dom config)
        && negb (bool_decide ("similarity" ∈ dom config))
     then {["similarity"]} else ∅).
Proof.
  unfold capabilities, registered. rewrite !contains_dom.
  rewrite !fmap_app, !list_to_set_app_L.
  pose proof (loop_names_declared config) as Hloop.
  apply set_eq. intros name.
  repeat case_bool_decide; simpl; set_solver.
Qed.

Lemma resolve_spec_unfold (D : gset string) :
  resolve_spec capability_graph D =
  D
  ∪ (if bool_decide ("cluster" ∈ D) && negb (bool_decide ("embeddings" ∈ D))
     then {["embeddings"]} else ∅)
  ∪ (if bool_decide ("embeddings" ∈ D) && negb (bool_decide ("similarity" ∈ D))
     then {["similarity"]} else ∅).
Proof.
  unfold resolve_spec, capability_graph.
  rewrite !filter_cons, filter_nil. simpl.
  repeat case_bool_decide; simpl; repeat case_decide; simpl; set_solver.
Qed.

Lemma capabilities_resolve_spec config :
  capabilities config = resolve_spec capability_graph (dom config).
Proof. by rewrite capabilities_unfold, resolve_spec_unfold. Qed.

(** C1. Capability resolution is the single-pass resolution of the
    design document over the edges cluster → embeddings and
    embeddings → similarity: the capabilities present after composition
    are the declared names together with every implied name whose
    trigger is declared and which is not itself declared, each edge
    being tested against the declared set only. [compose] includes
    exactly the routers [registered] lists. Declared {cluster} gives
    {cluster, embeddings}, similarity not being added through the
    implied embeddings; declared {embeddings} gives
    {embeddings, similarity}; declared {embeddings, similarity} gives
    itself, each router included once. *)
Theorem capability_resolution config (v : Settings) s :
  compose config s = (Returns tt, with_routers (registered config) s)
  ∧ capabilities config = resolve_spec capability_graph (dom config)
  ∧ (capabilities ({["cluster" := v]} : gmap string Settings)
       = {["cluster"; "embeddings"]}
     ∧ registered ({["cluster" := v]} : gmap string Settings)
       = [embeddings_router])
  ∧ (capabilities ({["embeddings" := v]} : gmap string Settings)
       = {["embeddings"; "similarity"]}
     ∧ registered ({["embeddings" := v]} : gmap string Settings)
       = [embeddings_router; similarity_router])
  ∧ (capabilities ({["embeddings" := v; "similarity" := v]} : gmap string Settings)
       = {["embeddings"; "similarity"]}
     ∧ registered ({["embeddings" := v; "similarity" := v]} : gmap string Settings)
       = [embeddings_router; similarity_router]).
Proof.
  split; [apply compose_run|].
  split; [apply capabilities_resolve_spec|].
  repeat split; by vm_compute.
Qed.

(** C3. In one composition pass no router is included twice, whatever
    the configuration: the routers [compose] adds to the application are
    pairwise distinct, also for a name that is both a declared key and
    the target of a special case. *)
Theorem compose_registers_once config s :
  included (app (compose config s).2)
    = included (app s) ++ registered config
  ∧ NoDup (registered config).
Proof.
  split; [by rewrite compose_run|].
  unfold registered.
  set (kept := filter (λ entry, contains config entry.1) routers).
  assert (Hkept : ∀ r, r ∈ kept.*2 → contains config (router_name r) = true).
  { intros r [[n r'] [-> Hin]]%list_elem_of_fmap.
    apply list_elem_of_filter in Hin as [Hc Hin]. simpl in *.
    pose proof routers_named as Hall. rewrite Forall_forall in Hall.
    specialize (Hall _ Hin). simpl in *. rewrite Hall.
    by apply Is_true_true. }
  assert (Hnd : NoDup kept.*2).
  { apply (sublist_NoDup kept.*2 routers.*2); [apply routers_distinct|].
    apply fmap_sublist, sublist_filter. }
  pose proof (Hkept embeddings_router) as He.
  pose proof (Hkept similarity_router) as Hs. simpl in He, Hs.
  destruct (contains config "cluster"), (contains config "embeddings") eqn:Eemb,
    (contains config "similarity") eqn:Esim; simpl;
    rewrite ?app_nil_r; try done.
  - apply NoDup_app; split_and!; [done | | apply NoDup_singleton].
    intros r Hr ->%list_elem_of_singleton. by specialize (Hs Hr).
  - apply NoDup_app; split_and!; [done | | apply NoDup_singleton].
    intros r Hr ->%list_elem_of_singleton. by specialize (He Hr).
  - apply NoDup_app; split_and!; [done | | apply NoDup_singleton].
    intros r Hr ->%list_elem_of_singleton. by specialize (He Hr).
  - apply NoDup_app; split_and!; [done | | apply NoDup_singleton].
    intros r Hr ->%list_elem_of_singleton. by specialize (Hs Hr).
Qed.

End Composition.

(** Resolution on declared sets agrees with the design document's. *)
Lemma resolve_resolve_spec (D : gset string) :
  resolve D = resolve_spec capability_graph D.
Proof.
  unfold resolve. by rewrite capabilities_resolve_spec, dom_gset_to_gmap.
Qed.

(** C2, as the code has it. Resolving a resolved set again gives the same
    set exactly when the declared set does not hold cluster without both
    embeddings and similarity; in that one case the first pass adds
    embeddings and the second pass then adds similarity. *)
Theorem resolve_twice (D : gset string) :
  resolve (resolve D) = resolve D
  ↔ ¬ ("cluster" ∈ D ∧ ("embeddings" ∉ D) ∧ ("similarity" ∉ D)).
Proof.
  rewrite !resolve_resolve_spec, !resolve_spec_unfold.
  split.
  - intros Heq (Hc & He & Hs).
    assert (Hin : "similarity" ∈
      (D
       ∪ (if bool_decide ("cluster" ∈ D) && negb (bool_decide ("embeddings" ∈ D))
          then {["embeddings"]} else ∅)
       ∪ (if bool_decide ("embeddings" ∈ D) && negb (bool_decide ("similarity" ∈ D))
          then {["similarity"]} else ∅))).
    { rewrite <- Heq. repeat case_bool_decide; simpl in *; set_solver. }
    revert Hin. repeat case_bool_decide; simpl; set_solver.
  - intros Hno. apply set_eq. intros name.
    repeat case_bool_decide; simpl in *; set_solver.
Qed.

(** C2 as claimed fails: from declared {cluster} the first pass gives
    {cluster, embeddings}, and resolving that gives
    {cluster, embeddings, similarity}. *)
Lemma resolve_not_idempotent :
  resolve {["cluster"]} = {["cluster"; "embeddings"]}
  ∧ resolve (resolve {["cluster"]}) = {["cluster"; "embeddings"; "similarity"]}
  ∧ resolve (resolve {["cluster"]}) ≠ resolve {["cluster"]}.
Proof. split_and!; by vm_compute. Qed.

Section Extensions.

Context {API : Type}.
Variable Factory_get : string → outcome ExtensionClass.
Variable strip : string → string.
Implicit Types (s : @State API) (names : list string).

(** One loop body, by the step at which it stops. *)
Lemma run_extension_run extension s :
  run_extension Factory_get strip extension s =
  match Factory_get (strip extension) with
  | Raises e => (Raises e, s)
  | Returns (Raises e) =>
      (Raises e, moved (app s) [Resolved (strip extension)] s)
  | Returns (Returns instance) =>
      match instance (app s) with
      | Raises e =>
          (Raises e,
           moved (app s)
             [Resolved (strip extension); Instantiated (strip extension)] s)
      | Returns a =>
          (Returns tt,
           moved a [Resolved (strip extension); Instantiated (strip extension);
                    Invoked (strip extension) (app s)] s)
      end
  end.
Proof.
  unfold run_extension, bind, lift, log, set_app, moved; simpl.
  destruct (Factory_get (strip extension)) as [[instance|e]|e]; simpl; try done.
  destruct (instance (app s)); simpl; by rewrite <- ?app_assoc.
Qed.

Lemma moved_nil s : moved (app s) [] s = s.
Proof. destruct s. unfold moved; simpl. by rewrite app_nil_r. Qed.

Lemma moved_moved a b evs1 evs2 s :
  moved b evs2 (moved a evs1 s) = moved b (evs1 ++ evs2) s.
Proof. unfold moved; simpl. by rewrite app_assoc. Qed.

(** A loop over [l1 ++ l2] is the loop over [l1], then, if that returned,
    the loop over [l2]. *)
Lemma for_app {A} (l1 l2 : list A) (body : A → M unit) s :
  for_ (l1 ++ l2) body s =
  match for_ l1 body s with
  | (Returns _, s1) => for_ l2 body s1
  | (Raises e, s1) => (Raises e, s1)
  end.
Proof.
  revert s. induction l1 as [|x l1 IH]; intros s; simpl; [done|].
  unfold bind. destruct (body x s) as [[[]|e] s1]; [apply IH | done].
Qed.

(** A run that returns has logged the sequential schedule and nothing
    else, and leaves [INSTANCE] alone. *)
Lemma run_extensions_returns names s s' :
  run_extensions Factory_get strip names s = (Returns tt, s') →
  ∃ a, s' = moved a (schedule Factory_get strip names (app s)) s.
Proof.
  unfold run_extensions. revert s.
  induction names as [|extension names IH]; intros s; simpl.
  - intros [= <-]. exists (app s). by rewrite moved_nil.
  - unfold bind. rewrite run_extension_run. unfold after.
    destruct (Factory_get (strip extension)) as [[instance|e]|e]; try done.
    destruct (instance (app s)) as [a|e]; try done.
    intros [b ->]%IH. exists b. simpl. by rewrite moved_moved.
Qed.

(** Whatever the outcome, the loop does not touch [INSTANCE]. *)
Lemma run_extensions_INSTANCE names s :
  INSTANCE (run_extensions Factory_get strip names s).2 = INSTANCE s.
Proof.
  unfold run_extensions. revert s.
  induction names as [|extension names IH]; intros s; simpl; [done|].
  unfold bind. rewrite run_extension_run.
  destruct (Factory_get (strip extension)) as [[instance|e]|e]; try done.
  destruct (instance (app s)) as [a|e]; try done.
  by rewrite IH.
Qed.

(** In the schedule every list entry has one step of each kind. *)
Lemma times_schedule kind name names root :
  times kind name (schedule Factory_get strip names root)
  = length (filter (λ extension, strip extension = name) names).
Proof.
  unfold times. revert root.
  induction names as [|extension names IH]; intros root; simpl; [done|].
  rewrite !filter_cons. simpl.
  destruct kind; repeat case_decide; simplify_eq; simpl; by rewrite IH.
Qed.

(** C4, as the code has it. When the loop returns, what it logged is the
    sequential schedule: the entries in list order, each entry resolved,
    then instantiated, then called with the application as its only
    argument, all before the next entry is touched; for two entries the
    first is fully invoked before the second is resolved. Each list entry
    is processed once, so an extension has as many steps of each kind as
    the list has entries naming it: one when it is listed once, two when
    it is listed twice. *)
Theorem extensions_run_in_order names s s' :
  run_extensions Factory_get strip names s = (Returns tt, s') →
  trace s' = trace s ++ schedule Factory_get strip names (app s)
  ∧ INSTANCE s' = INSTANCE s
  ∧ (∀ first second root,
       schedule Factory_get strip [first; second] root
       = [ Resolved (strip first); Instantiated (strip first);
           Invoked (strip first) root;
           Resolved (strip second); Instantiated (strip second);
           Invoked (strip second) (after Factory_get strip first root) ])
  ∧ (∀ kind name,
       times kind name (schedule Factory_get strip names (app s))
       = length (filter (λ extension, strip extension = name) names)).
Proof.
  intros [a ->]%run_extensions_returns.
  split_and!; [done | done | done |].
  intros kind name. apply times_schedule.
Qed.

End Extensions.

Section Start.

Context {Settings API : Type}.
Variable API_read : option string → outcome (gmap string Settings).
Variable API_new : gmap string Settings → outcome API.
Variable Factory_create : gmap string Settings → string → outcome API.
Variable Factory_get : string → outcome ExtensionClass.
Variable strip : string → string.
Implicit Types (s : @State API) (environ : gmap string string).

(** [start] once the configuration is read and the instance built: the
    instance is stored, the routers are included, and the extension loop
    runs from there. *)
Lemma start_run environ config instance s :
  API_read (environ !! "CONFIG") = Returns config →
  match truthy (environ !! "API_CLASS") with
  | Some api => Factory_create config api
  | None => API_new config
  end = Returns instance →
  start API_read API_new Factory_create Factory_get strip environ s
  = match truthy (environ !! "EXTENSIONS") with
    | Some extensions =>
        run_extensions Factory_get strip (split ","%char extensions)
    | None => ret tt
    end (with_routers (registered config) (set_INSTANCE instance s).2).
Proof.
  intros Hread Hnew. unfold start, bind, lift.
  rewrite Hread, Hnew. simpl. by rewrite compose_run.
Qed.

(** C9, as the code has it. The accessor returns the current value of the
    global slot and never raises: before startup that value is [None];
    once [start] has returned it is the instance [start] built, the one
    the constructor selected by [API_CLASS] returned for the configuration
    read in that run, whatever the slot held before. *)
Theorem get_returns_slot :
  get (@boot API) = (Returns None, boot)
  ∧ (∀ s, get s = (Returns (INSTANCE s), s))
  ∧ (∀ environ s s',
       start API_read API_new Factory_create Factory_get strip environ s
       = (Returns tt, s') →
       ∃ config instance,
         API_read (environ !! "CONFIG") = Returns config
         ∧ match truthy (environ !! "API_CLASS") with
           | Some api => Factory_create config api
           | None => API_new config
           end = Returns instance
         ∧ get s' = (Returns (Some instance), s')).
Proof.
  split_and!; [done | done |].
  intros environ s s' Hstart.
  destruct (API_read (environ !! "CONFIG")) as [config|e] eqn:Hread;
    [|by unfold start, bind, lift in Hstart; rewrite Hread in Hstart].
  destruct (match truthy (environ !! "API_CLASS") with
            | Some api => Factory_create config api
            | None => API_new config
            end) as [instance|e] eqn:Hnew;
    [|by unfold start, bind, lift in Hstart; rewrite Hread, Hnew in Hstart].
  exists config, instance. split_and!; [done | done |].
  rewrite (start_run environ config instance) in Hstart by done.
  unfold get. f_equal. f_equal.
  destruct (truthy (environ !! "EXTENSIONS")) as [extensions|].
  - pose proof (run_extensions_INSTANCE Factory_get strip
      (split ","%char extensions)
      (with_routers (registered config) (set_INSTANCE instance s).2))
      as Hkeep.
    rewrite Hstart in Hkeep. exact Hkeep.
  - by injection Hstart as <-.
Qed.

End Start.

Section Unresolved.

Context {Settings API : Type}.
Variable API_read : option string → outcome (gmap string Settings).
Variable API_new : gmap string Settings → outcome API.
Variable Factory_create : gmap string Settings → string → outcome API.
Variable registry : gmap string ExtensionClass.
Variable strip : string → string.
Implicit Types (s : @State API) (environ : gmap string string).

(** C5. When an entry of the extension list does not resolve, startup
    as a whole raises and does not return: the loop stops at the first
    step that fails. When the entries before the unresolved one ran, what
    is raised is the [ConfigurationError] naming that extension, from the
    state those earlier entries left: the log holds their schedule and no
    step of the unresolved entry or of any later one, which are neither
    constructed nor invoked. *)
Theorem unresolved_extension_fails_startup
    environ config instance extensions before bad later s :
  API_read (environ !! "CONFIG") = Returns config →
  match truthy (environ !! "API_CLASS") with
  | Some api => Factory_create config api
  | None => API_new config
  end = Returns instance →
  truthy (environ !! "EXTENSIONS") = Some extensions →
  split ","%char extensions = before ++ bad :: later →
  registry !! strip bad = None →
  (∃ e s', start API_read API_new Factory_create (Factory_get_spec registry)
             strip environ s = (Raises e, s'))
  ∧ (∀ s1,
       run_extensions (Factory_get_spec registry) strip before
         (with_routers (registered config) (set_INSTANCE instance s).2)
       = (Returns tt, s1) →
       start API_read API_new Factory_create (Factory_get_spec registry) strip
         environ s
       = (Raises (ConfigurationError (strip bad)), s1)
       ∧ trace s1
         = trace s ++ schedule (Factory_get_spec registry) strip before
                        (mkFastAPI (included (app s) ++ registered config))).
Proof.
  intros Hread Hnew Hext Hsplit Hbad.
  rewrite (start_run _ _ _ _ _ _ config instance) by done.
  rewrite Hext, Hsplit. unfold run_extensions.
  rewrite for_app.
  destruct (for_ before _ _) as [[[]|e] s'] eqn:Hbefore.
  - assert (Hget : Factory_get_spec registry (strip bad)
                   = Raises (ConfigurationError (strip bad)))
      by (unfold Factory_get_spec; by rewrite Hbad).
    simpl. unfold bind. rewrite run_extension_run, Hget.
    split; [eauto|]. intros s1 [= <-]. split; [done|].
    by apply run_extensions_returns in Hbefore as [a ->].
  - split; [eauto|]. by intros s1 [=].
Qed.

End Unresolved.

(** *** Runs on the test doubles *)

(** C2: the resolved set of {embeddings} is a fixed point, as the theorem
    says of a declared set that does not hold cluster alone. *)
Lemma resolve_twice_witness :
  resolve (resolve {["embeddings"]}) = resolve {["embeddings"]}.
Proof.
  apply (resolve_twice {["embeddings"]}).
  intros (Hcluster & _). revert Hcluster. by vm_compute.
Defined.

(** C4 as claimed fails: the list [a, a] is run to its end and the
    extension [a] is resolved, instantiated and invoked twice, not once. *)
Lemma extension_listed_twice_runs_twice :
  let run := run_extensions (API := unit)
               Doubles.Factory_get Doubles.strip ["a"; "a"] boot in
  run.1 = Returns tt
  ∧ times resolving "a" (trace run.2) = 2
  ∧ times instantiating "a" (trace run.2) = 2
  ∧ times invoking "a" (trace run.2) = 2
  ∧ times invoking "a" (trace run.2) ≠ 1.
Proof. split_and!; by vm_compute. Qed.

(** C4: the list [a, b] (the second entry written with a blank) on the
    doubles: [a] is invoked on the empty application before [b] is
    resolved, and [b] receives the application as [a] left it. *)
Lemma extensions_run_in_order_witness :
  let Factory_get := Doubles.Factory_get in
  let s' : @State unit :=
    {| INSTANCE := None;
       app := mkFastAPI [workflow_router; labels_router];
       trace := [ Resolved "a"; Instantiated "a"; Invoked "a" (mkFastAPI []);
                  Resolved "b"; Instantiated "b";
                  Invoked "b" (mkFastAPI [workflow_router]) ] |} in
  run_extensions Factory_get Doubles.strip ["a"; " b"] boot = (Returns tt, s')
  ∧ trace s'
    = trace (@boot unit)
      ++ schedule Factory_get Doubles.strip ["a"; " b"] (app (@boot unit)).
Proof.
  intros Factory_get s'.
  assert (Hrun : run_extensions Factory_get Doubles.strip ["a"; " b"] boot
                 = (Returns tt, s')) by (by vm_compute).
  split; [exact Hrun|].
  exact (proj1 (extensions_run_in_order Factory_get Doubles.strip
                  ["a"; " b"] boot s' Hrun)).
Defined.

(** C5: [EXTENSIONS] is [a, missing,b]; [a] runs, [missing] does not
    resolve, [b] is never reached. *)
Lemma unresolved_extension_fails_startup_witness :
  let environ : gmap string string :=
    {[ "CONFIG" := "config.yml"; "EXTENSIONS" := "a, missing,b" ]} in
  let s1 : @State (gmap string unit) :=
    {| INSTANCE := Some Doubles.settings;
       app := mkFastAPI [embeddings_router; workflow_router;
                         similarity_router; workflow_router];
       trace := [ Resolved "a"; Instantiated "a";
                  Invoked "a" (mkFastAPI [embeddings_router; workflow_router;
                                          similarity_router]) ] |} in
  start Doubles.API_read Doubles.API_new Doubles.Factory_create
    (Factory_get_spec Doubles.extensions) Doubles.strip environ boot
  = (Raises (ConfigurationError "missing"), s1).
Proof.
  intros environ s1.
  refine (proj1 (proj2 (unresolved_extension_fails_startup
           Doubles.API_read Doubles.API_new Doubles.Factory_create
           Doubles.extensions Doubles.strip environ
           Doubles.settings Doubles.settings "a, missing,b"
           ["a"] " missing" ["b"] boot _ _ _ _ _) s1 _)); by vm_compute.
Defined.

(** An extension that raises stops the loop at its call: it was resolved
    and instantiated, the exception is the one it raised, and the entry
    after it is not touched. *)
Example broken_extension_stops_the_loop :
  let Factory_get name :=
    if decide (name = "x") then Returns (Returns Doubles.broken)
    else Doubles.Factory_get name in
  run_extensions (API := unit) Factory_get Doubles.strip ["x"; "a"] boot
  = (Raises (PyError "RuntimeError" "broken extension"),
     {| INSTANCE := None; app := mkFastAPI [];
        trace := [Resolved "x"; Instantiated "x"] |}).
Proof. by vm_compute. Qed.

(** With no [EXTENSIONS] startup stores the instance and includes the
    routers of the configuration. *)
Example start_without_extensions :
  start Doubles.API_read Doubles.API_new Doubles.Factory_create
    Doubles.Factory_get Doubles.strip ∅ boot
  = (Returns tt,
     {| INSTANCE := Some Doubles.settings;
        app := mkFastAPI [embeddings_router; workflow_router; similarity_router];
        trace := [] |}).
Proof. by vm_compute. Qed.

(** C9 as claimed fails: before startup the accessor returns [None]; it
    does not raise. *)
Lemma get_before_start_returns_None :
  (get (@boot unit)).1 = Returns None
  ∧ ¬ ∃ e, (get (@boot unit)).1 = Raises e.
Proof. split; [done|]. by intros [e He]. Qed.

(** C9: a startup on the doubles from a state that still holds an older
    instance: the accessor returns the instance that was built. *)
Lemma get_returns_slot_witness :
  let environ : gmap string string := {[ "EXTENSIONS" := "a,b" ]} in
  let stale : @State (gmap string unit) :=
    {| INSTANCE := Some ∅; app := mkFastAPI []; trace := [] |} in
  let started :=
    start Doubles.API_read Doubles.API_new Doubles.Factory_create
      Doubles.Factory_get Doubles.strip environ stale in
  started.1 = Returns tt
  ∧ get started.2 = (Returns (Some Doubles.settings), started.2).
Proof.
  intros environ stale started.
  assert (Hrun : started = (Returns tt, started.2))
    by (vm_compute; reflexivity).
  split; [by rewrite Hrun|].
  destruct (proj2 (proj2 (get_returns_slot
              Doubles.API_read Doubles.API_new Doubles.Factory_create
              Doubles.Factory_get Doubles.strip))
            environ stale started.2 Hrun)
    as (config & instance & Hread & Hnew & Hget).
  injection Hread as <-.
  change (Returns Doubles.settings = Returns instance) in Hnew.
  injection Hnew as <-. exact Hget.
Defined.

End ApplicationFacts.

(** * Properties of the LLM facade *)

Module LLMFacts.
Import LLM.

Section Facade.

Context {Value Text Output : Type}.
Variable create :
  string → option string → gmap string Value
  → outcome (@Generation Value Text Output).

(** C10. With no path, [None] or the empty string, the factory is called
    with the identifier google/flan-t5-base; with any other path it is
    called with that very path. Method and keyword arguments go through
    unchanged either way. *)
Theorem init_default_path method (kwargs : gmap string Value) :
  __init__ create None method kwargs
  = assign_generator (create "google/flan-t5-base" method kwargs)
  ∧ __init__ create (Some "") method kwargs
    = assign_generator (create "google/flan-t5-base" method kwargs)
  ∧ (∀ path, path ≠ "" →
       __init__ create (Some path) method kwargs
       = assign_generator (create path method kwargs)).
Proof.
  split_and!; [done | done |].
  intros path Hpath. unfold __init__, truthy. by case_decide.
Qed.

(** C7. A call of the facade is the call of its backend with the same
    text, the same maxlength and the same keyword arguments: the outcome,
    a result or a raised exception, is the backend's own. An omitted
    maxlength is 512. The backend called is the one the factory returned
    to [__init__]; if the factory raised, [__init__] raised the same. *)
Theorem call_forwards (self : @LLM Value Text Output) text maxlength
    (kwargs : gmap string Value) :
  __call__ self text (Some maxlength) kwargs
  = generator self text maxlength kwargs
  ∧ __call__ self text None kwargs = generator self text 512%Z kwargs
  ∧ (∀ path method (options : gmap string Value),
       match __init__ create path method options with
       | Returns llm =>
           ∃ backend,
             create (default "google/flan-t5-base" (truthy path)) method options
             = Returns backend
             ∧ __call__ llm text (Some maxlength) kwargs
               = backend text maxlength kwargs
       | Raises e =>
           create (default "google/flan-t5-base" (truthy path)) method options
           = Raises e
       end).
Proof.
  split_and!; [done | done |].
  intros path method options. unfold __init__, assign_generator.
  destruct (truthy path) as [p|]; simpl.
  - destruct (create p method options) as [backend|e]; [|done].
    by exists backend.
  - destruct (create "google/flan-t5-base" method options) as [backend|e];
      [|done].
    by exists backend.
Qed.

End Facade.

Section Resolver.

Context {Value Text Output : Type}.
Variable markers : list ((string → bool) * string).
Variable default_family : string.
Variable registry :
  gmap string (string → gmap string Value
               → outcome (@Generation Value Text Output)).

(** C6. Whatever the path, constructing the facade with an explicit
    method the registry does not hold raises the [ConfigurationError]
    naming that method; no backend of another family is built. *)
Theorem unsupported_method_raises path method (kwargs : gmap string Value) :
  registry !! method = None →
  __init__ (resolve markers default_family registry) path (Some method) kwargs
  = Raises (ConfigurationError method).
Proof.
  intros Hnone. unfold __init__, resolve, assign_generator.
  by rewrite Hnone.
Qed.

Lemma find_none_iff {A} (f : A → bool) (l : list A) :
  List.find f l = None ↔ ∀ x, x ∈ l → f x = false.
Proof.
  induction l as [|y l IH]; simpl.
  - split; [|done]. intros _ x Hx. by apply elem_of_nil in Hx.
  - destruct (f y) eqn:Hy.
    + split; [done|]. intros Hall. specialize (Hall y (list_elem_of_here _ _)).
      congruence.
    + rewrite IH. split.
      * intros Hall x [->|Hx]%elem_of_cons; auto.
      * intros Hall x Hx. apply Hall. by apply list_elem_of_further.
Qed.

(** C8. Constructed without a method, the facade hands the resolver no
    method and the identifier it settled on (the path, or the default
    path), so the family is the one inferred from that identifier: the
    outcome of [__init__] is the backend that family's constructor builds
    on the identifier, or the resolver's error for that family. Inference
    always yields a family, the default one or a marker's. For an
    identifier that shows no marker the family is the default one, and
    when the default family's constructor returns a backend [__init__]
    returns the facade around it: nothing is raised on account of the
    identifier's shape. Any string without a marker, handed over by the
    facade or not, is inferred to be of the default family. *)
Theorem infer_total path (kwargs : gmap string Value) :
  let identifier := default "google/flan-t5-base" (truthy path) in
  let family := infer markers default_family identifier in
  __init__ (resolve markers default_family registry) path None kwargs
  = match registry !! family with
    | None => Raises (ConfigurationError family)
    | Some construct =>
        match construct identifier kwargs with
        | Returns backend => Returns (mkLLM backend)
        | Raises cause => Raises (BackendUnavailableError family cause)
        end
    end
  ∧ family ∈ default_family :: markers.*2
  ∧ ((∀ marker, marker ∈ markers → marker.1 identifier = false) →
     family = default_family
     ∧ ∀ construct backend,
         registry !! default_family = Some construct →
         construct identifier kwargs = Returns backend →
         __init__ (resolve markers default_family registry) path None kwargs
         = Returns (mkLLM backend))
  ∧ (∀ other,
       (∀ marker, marker ∈ markers → marker.1 other = false) →
       infer markers default_family other = default_family).
Proof.
  intros identifier family.
  assert (Hinit :
    __init__ (resolve markers default_family registry) path None kwargs
    = match registry !! family with
      | None => Raises (ConfigurationError family)
      | Some construct =>
          match construct identifier kwargs with
          | Returns backend => Returns (mkLLM backend)
          | Raises cause => Raises (BackendUnavailableError family cause)
          end
      end).
  { unfold __init__, resolve, assign_generator. subst family identifier.
    destruct (truthy path) as [p|]; simpl.
    - destruct (registry !! infer markers default_family p) as [construct|];
        [|done]. by destruct (construct p kwargs).
    - destruct (registry !! infer markers default_family "google/flan-t5-base")
        as [construct|]; [|done].
      by destruct (construct "google/flan-t5-base" kwargs). }
  split_and!; [exact Hinit | | |].
  - subst family. unfold infer.
    destruct (List.find _ markers) as [marker|] eqn:Hfind.
    + apply list_elem_of_further, list_elem_of_fmap. exists marker.
      split; [done|]. apply list_elem_of_In. by apply find_some in Hfind as [? _].
    + apply list_elem_of_here.
  - intros Hnone.
    assert (Hdefault : family = default_family).
    { subst family. unfold infer. by apply find_none_iff in Hnone as ->. }
    split; [exact Hdefault|].
    intros construct backend Hreg Hbuilt.
    rewrite Hinit, Hdefault, Hreg, Hbuilt. done.
  - intros other Hnone. unfold infer.
    by apply find_none_iff in Hnone as ->.
Qed.

End Resolver.

(** *** Runs on the test doubles *)

(** C10: a path of one's own reaches the factory as it is. *)
Lemma init_default_path_witness :
  __init__ (Value := string)
    (resolve Doubles.family_markers "transformers" Doubles.backends)
    (Some "openai/gpt-4o") None ∅
  = assign_generator
      (resolve Doubles.family_markers "transformers" Doubles.backends
         "openai/gpt-4o" None ∅).
Proof.
  apply (proj2 (proj2 (init_default_path
           (resolve Doubles.family_markers "transformers" Doubles.backends)
           None ∅))).
  by vm_compute.
Defined.

(** C6: the method [nonexistent] on the doubles. *)
Lemma unsupported_method_raises_witness :
  __init__ (resolve Doubles.family_markers "transformers" Doubles.backends)
    (Some "google/flan-t5-base") (Some "nonexistent") ∅
  = Raises (ConfigurationError "nonexistent").
Proof.
  apply (unsupported_method_raises Doubles.family_markers "transformers"
           Doubles.backends (Some "google/flan-t5-base") "nonexistent" ∅).
  by vm_compute.
Defined.

(** C8: no path and no method on the doubles: the default identifier
    shows no marker and the facade is built on the default family. *)
Lemma infer_total_witness :
  __init__ (resolve Doubles.family_markers "transformers" Doubles.backends)
    None None ∅
  = Returns (mkLLM Doubles.echo).
Proof.
  refine (proj2 (proj1 (proj2 (proj2 (infer_total Doubles.family_markers
            "transformers" Doubles.backends None ∅))) _)
          (λ _ _, Returns Doubles.echo) Doubles.echo _ _).
  - intros marker Hin. apply list_elem_of_singleton in Hin as ->.
    vm_compute; reflexivity.
  - vm_compute; reflexivity.
  - reflexivity.
Defined.

(** On the doubles: the remote family is inferred from the marker and its
    backend's exception comes out of the facade as raised; a constructor
    that fails comes out as [BackendUnavailableError]. *)
Example facade_on_doubles :
  let create := resolve Doubles.family_markers "transformers" Doubles.backends in
  (match __init__ create (Some "openai/gpt-4o") None ∅ with
   | Returns llm =>
       __call__ llm "hello" (Some (-1)%Z) ∅
       = Raises (PyError "ValueError" "negative maxlength")
       ∧ __call__ llm "hello" None {["stream" := "no"]} = Returns "hello"
   | Raises _ => False
   end)
  ∧ __init__ create (Some "model.gguf") (Some "llama.cpp") ∅
    = Raises (BackendUnavailableError "llama.cpp"
                (PyError "ImportError" "llama.cpp is not available")).
Proof. by vm_compute. Qed.

End LLMFacts.

(** * Further properties of startup *)

Module StartupFacts.
Import Application ApplicationFacts.

Section Routers.

Context {Settings : Type}.
Implicit Types (config : gmap string Settings) (r : Router).

(** Every router object is in the table, under its name. *)
Lemma routers_complete r : (router_name r, r) ∈ routers.
Proof. destruct r; unfold routers; set_solver. Qed.

(** The loop includes a router exactly when its name is a key. *)
Lemma loop_includes config r :
  r ∈ (filter (λ entry, contains config entry.1) routers).*2
  ↔ router_name r ∈ dom config.
Proof.
  split.
  - intros Hin. apply (loop_names_declared config).
    apply list_elem_of_fmap. by exists r.
  - intros Hdom. apply list_elem_of_fmap. exists (router_name r, r).
    split; [done|]. apply list_elem_of_filter. split; [|apply routers_complete].
    simpl. rewrite contains_dom. by apply bool_decide_pack.
Qed.

Lemma registered_NoDup config : NoDup (registered config).
Proof.
  unfold registered.
  assert (Hnd : NoDup (filter (λ entry, contains config entry.1) routers).*2).
  { apply (sublist_NoDup _ routers.*2); [apply routers_distinct|].
    apply fmap_sublist, sublist_filter. }
  rewrite !contains_dom.
  repeat case_bool_decide; simpl; rewrite ?app_nil_r; try done;
    (apply NoDup_app; split_and!; [done | | apply NoDup_singleton]);
    intros r Hr%loop_includes ->%list_elem_of_singleton; done.
Qed.

(** X1. Which routers a configuration gets: a router is included exactly
    when its own name is a key of the configuration, or it is the
    embeddings router and cluster is a key, or it is the similarity router
    and embeddings is a key. *)
Theorem registered_iff config r :
  r ∈ registered config
  ↔ router_name r ∈ dom config
    ∨ (r = embeddings_router ∧ "cluster" ∈ dom config)
    ∨ (r = similarity_router ∧ "embeddings" ∈ dom config).
Proof.
  unfold registered. rewrite !elem_of_app, loop_includes, !contains_dom.
  repeat case_bool_decide; simpl;
    rewrite ?list_elem_of_singleton, ?elem_of_nil; naive_solver.
Qed.

(** X2. Composition looks at fourteen keys only, cluster and the thirteen
    names of the router table: two configurations that agree on which of
    these are present get the same routers in the same order, whatever
    other keys and whatever settings they hold. *)
Theorem registered_ignores_other_keys {Settings'} config
    (config' : gmap string Settings') :
  (∀ name, name ∈ "cluster" :: routers.*1 →
     name ∈ dom config ↔ name ∈ dom config') →
  registered config = registered config'.
Proof.
  intros Hsame. unfold registered.
  assert (Hc : ∀ name, name ∈ "cluster" :: routers.*1 →
                contains config name = contains config' name).
  { intros name Hin. rewrite !contains_dom. apply bool_decide_ext. auto. }
  rewrite (Hc "cluster"), (Hc "embeddings"), (Hc "similarity")
    by (unfold routers; simpl; set_solver).
  do 2 f_equal.
  assert (Hall : Forall (λ entry : string * Router,
                   contains config entry.1 = contains config' entry.1) routers).
  { apply Forall_forall. intros [name r] Hin. apply Hc.
    apply list_elem_of_further, list_elem_of_fmap. by exists (name, r). }
  clear Hsame Hc.
  induction Hall as [|entry table Heq _ IH]; [done|].
  rewrite !filter_cons. rewrite Heq, IH.
  by destruct (contains config' entry.1).
Qed.

(** X4. At most thirteen routers are included, and a configuration that
    declares all thirteen names gets the whole table, in table order, the
    special cases adding nothing. *)
Theorem registered_at_most_all config :
  (length (registered config) ≤ 13)%nat
  ∧ ((∀ r, router_name r ∈ dom config) → registered config = routers.*2).
Proof.
  split.
  - change 13 with (length routers.*2).
    apply submseteq_length, NoDup_submseteq; [apply registered_NoDup|].
    intros r _. apply list_elem_of_fmap. exists (router_name r, r).
    split; [done | apply routers_complete].
  - intros Hall.
    assert (Hkeep : ∀ table : list (string * Router),
              Forall (λ entry, router_name entry.2 = entry.1) table →
              filter (λ entry, contains config entry.1) table = table).
    { intros table Hnamed.
      induction Hnamed as [|[name r] table Heq _ IH]; [done|].
      simpl in Heq. subst name. rewrite filter_cons, IH. simpl.
      rewrite contains_dom, (bool_decide_eq_true_2 _ (Hall r)). done. }
    unfold registered. rewrite (Hkeep _ routers_named), !contains_dom.
    rewrite (bool_decide_eq_true_2 _ (Hall embeddings_router)).
    rewrite (bool_decide_eq_true_2 _ (Hall similarity_router)).
    simpl. by rewrite andb_false_r.
Qed.

End Routers.

(** X3. Declaring more never loses a router: every router included for a
    configuration is included for any configuration with at least its
    keys. *)
Theorem registered_monotone {Settings Settings'}
    (config : gmap string Settings) (config' : gmap string Settings') r :
  dom config ⊆ dom config' →
  r ∈ registered config → r ∈ registered config'.
Proof.
  rewrite elem_of_subseteq. intros Hsub Hin.
  apply registered_iff in Hin. apply registered_iff.
  destruct Hin as [H|[[-> H]|[-> H]]]; [left | right; left | right; right]; auto.
Qed.

Lemma elem_of_resolve (D : gset string) name :
  name ∈ resolve D
  ↔ name ∈ D
    ∨ (name = "embeddings" ∧ "cluster" ∈ D)
    ∨ (name = "similarity" ∧ "embeddings" ∈ D).
Proof.
  rewrite resolve_resolve_spec, resolve_spec_unfold.
  repeat case_bool_decide; simpl; set_solver.
Qed.

(** X5. Resolution keeps every declared name and can only add embeddings
    and similarity; it adds nothing exactly when the declared set already
    holds embeddings whenever it holds cluster and similarity whenever it
    holds embeddings. *)
Theorem resolve_adds_at_most_two (D : gset string) :
  D ⊆ resolve D
  ∧ resolve D ⊆ D ∪ {["embeddings"; "similarity"]}
  ∧ (resolve D = D ↔
       ("cluster" ∈ D → "embeddings" ∈ D)
       ∧ ("embeddings" ∈ D → "similarity" ∈ D)).
Proof.
  split_and!.
  - intros name Hin. apply elem_of_resolve. by left.
  - intros name [Hin|[[-> _]|[-> _]]]%elem_of_resolve; set_solver.
  - split.
    + intros Heq. split; intros Hin.
      * rewrite <- Heq. apply elem_of_resolve. auto.
      * rewrite <- Heq. apply elem_of_resolve. auto.
    + intros [H1 H2]. apply set_eq. intros name. rewrite elem_of_resolve.
      split; [|by left]. intros [Hin|[[-> Hin]|[-> Hin]]]; auto.
Qed.

(** X6. Resolution is monotone in the declared set. *)
Theorem resolve_monotone (D D' : gset string) :
  D ⊆ D' → resolve D ⊆ resolve D'.
Proof.
  rewrite !elem_of_subseteq. intros Hsub name. rewrite !elem_of_resolve.
  intros [Hin|[[-> Hin]|[-> Hin]]]; auto.
Qed.

(** X7. A second pass reaches the fixed point: resolving three times is
    resolving twice, and two passes give the declared names, embeddings
    when cluster is declared, and similarity when cluster or embeddings
    is. *)
Theorem resolve_stabilises (D : gset string) :
  resolve (resolve (resolve D)) = resolve (resolve D)
  ∧ ∀ name,
      name ∈ resolve (resolve D)
      ↔ name ∈ D
        ∨ (name = "embeddings" ∧ "cluster" ∈ D)
        ∨ (name = "similarity" ∧ ("embeddings" ∈ D ∨ "cluster" ∈ D)).
Proof.
  split.
  - apply set_eq. intros name. rewrite !elem_of_resolve.
    split; [|by left]. naive_solver.
  - intros name. rewrite !elem_of_resolve. naive_solver.
Qed.

Lemma split_length sep s : length (split sep s) = S (occurrences sep s).
Proof.
  induction s as [|c s IH]; simpl; [done|].
  case_decide; simpl; [by rewrite IH|].
  destruct (split sep s) as [|w ws]; simpl in *; [done | lia].
Qed.

Section Loop.

Context {API : Type}.
Variable Factory_get : string → outcome ExtensionClass.
Variable strip : string → string.
Implicit Types (s : @State API) (names : list string).

Lemma schedule_length names root :
  length (schedule Factory_get strip names root) = 3 * length names.
Proof.
  revert root. induction names as [|extension names IH]; intros root; simpl;
    [done|]. rewrite IH. lia.
Qed.

(** X8. Whatever the outcome of the extension loop, also when a step
    raises, what it has logged is an initial part of the sequential
    schedule: no step is ever taken out of list order, and no step of an
    entry is taken before the entries ahead of it are completely done. *)
Theorem extension_steps_follow_schedule names s :
  ∃ steps,
    trace (run_extensions Factory_get strip names s).2 = trace s ++ steps
    ∧ steps `prefix_of` schedule Factory_get strip names (app s).
Proof.
  unfold run_extensions. revert s.
  induction names as [|extension names IH]; intros s; simpl.
  - exists []. by rewrite app_nil_r.
  - unfold bind. rewrite run_extension_run. unfold after.
    destruct (Factory_get (strip extension)) as [[instance|e]|e]; simpl.
    + destruct (instance (app s)) as [a|e]; simpl.
      * destruct (IH (moved a [Resolved (strip extension);
                               Instantiated (strip extension);
                               Invoked (strip extension) (app s)] s))
          as (steps & Htrace & Hprefix).
        exists ([Resolved (strip extension); Instantiated (strip extension);
                 Invoked (strip extension) (app s)] ++ steps).
        split.
        -- rewrite Htrace. simpl. by rewrite <- app_assoc.
        -- simpl. by do 3 apply prefix_cons.
      * exists [Resolved (strip extension); Instantiated (strip extension)].
        split; [done|]. do 2 apply prefix_cons. apply prefix_nil.
    + exists [Resolved (strip extension)].
      split; [done|]. apply prefix_cons, prefix_nil.
    + exists []. split; [by rewrite app_nil_r | apply prefix_nil].
Qed.

(** X9. The first entry whose body raises ends the loop: the loop raises
    that exception from the state that body left, and the entries after
    it play no part. *)
Theorem first_failure_stops_loop before failing later s s1 s2 e :
  run_extensions Factory_get strip before s = (Returns tt, s1) →
  run_extension Factory_get strip failing s1 = (Raises e, s2) →
  run_extensions Factory_get strip (before ++ failing :: later) s
  = (Raises e, s2).
Proof.
  unfold run_extensions. intros Hbefore Hfail.
  rewrite for_app, Hbefore. simpl. unfold bind. by rewrite Hfail.
Qed.

(** X10. Every piece between commas is an entry, empty pieces included:
    a loop over the pieces of [EXTENSIONS] that returns has logged three
    steps for each of the (number of commas + 1) pieces, and has resolved
    the stripped text of every piece. *)
Theorem every_piece_is_processed extensions s s' :
  run_extensions Factory_get strip (split ","%char extensions) s
  = (Returns tt, s') →
  length (trace s')
  = length (trace s) + 3 * S (occurrences ","%char extensions)
  ∧ ∀ piece, piece ∈ split ","%char extensions →
      Resolved (strip piece) ∈ trace s'.
Proof.
  intros [a ->]%run_extensions_returns. unfold moved; simpl. split.
  - by rewrite length_app, schedule_length, split_length.
  - intros piece Hin. apply elem_of_app. right.
    generalize (app s). induction Hin as [piece names|piece other names Hin IH];
      intros root; simpl.
    + apply list_elem_of_here.
    + do 3 apply list_elem_of_further. apply IH.
Qed.

End Loop.

Section Lifecycle.

Context {Settings API : Type}.
Variable API_read : option string → outcome (gmap string Settings).
Variable API_new : gmap string Settings → outcome API.
Variable Factory_create : gmap string Settings → string → outcome API.
Variable Factory_get : string → outcome ExtensionClass.
Variable strip : string → string.
Implicit Types (s : @State API) (environ : gmap string string).

(** X11. With [EXTENSIONS] unset or empty, a startup whose configuration
    is read and whose instance is built returns: the instance is stored,
    the routers of the configuration are included, and no extension is
    resolved, whatever [Factory.get] would do. *)
Theorem start_without_EXTENSIONS environ config instance s :
  API_read (environ !! "CONFIG") = Returns config →
  match truthy (environ !! "API_CLASS") with
  | Some api => Factory_create config api
  | None => API_new config
  end = Returns instance →
  environ !! "EXTENSIONS" = None ∨ environ !! "EXTENSIONS" = Some "" →
  start API_read API_new Factory_create Factory_get strip environ s
  = (Returns tt,
     {| INSTANCE := Some instance;
        app := mkFastAPI (included (app s) ++ registered config);
        trace := trace s |}).
Proof.
  intros Hread Hnew Hext.
  rewrite (start_run _ _ _ _ _ environ config instance) by done.
  by destruct Hext as [-> | ->].
Qed.

(** X12. When reading the configuration raises, or building the instance
    raises, startup raises that exception and has changed nothing:
    [INSTANCE] is as it was, no router is included, no extension is
    touched. *)
Theorem start_fails_before_composition environ s e :
  API_read (environ !! "CONFIG") = Raises e
  ∨ (∃ config,
       API_read (environ !! "CONFIG") = Returns config
       ∧ match truthy (environ !! "API_CLASS") with
         | Some api => Factory_create config api
         | None => API_new config
         end = Raises e) →
  start API_read API_new Factory_create Factory_get strip environ s
  = (Raises e, s).
Proof.
  unfold start, bind, lift.
  intros [Hread | (config & Hread & Hnew)]; rewrite Hread; [done|].
  by rewrite Hnew.
Qed.

(** X13. Once the instance is built it stays in [INSTANCE] whatever the
    extensions do: after startup, returned or raised in the extension
    loop, the accessor returns that instance. *)
Theorem instance_outlives_extension_failure environ config instance s :
  API_read (environ !! "CONFIG") = Returns config →
  match truthy (environ !! "API_CLASS") with
  | Some api => Factory_create config api
  | None => API_new config
  end = Returns instance →
  get (start API_read API_new Factory_create Factory_get strip environ s).2
  = (Returns (Some instance),
     (start API_read API_new Factory_create Factory_get strip environ s).2).
Proof.
  intros Hread Hnew.
  rewrite (start_run _ _ _ _ _ environ config instance) by done.
  unfold get. f_equal. f_equal.
  destruct (truthy (environ !! "EXTENSIONS")) as [extensions|]; [|done].
  by rewrite run_extensions_INSTANCE.
Qed.

(** X14. Startup is not idempotent: run a second time (without
    extensions) it includes the routers of the configuration again, so
    the application then holds every one of them twice. *)
Theorem start_twice_includes_twice environ config instance s :
  API_read (environ !! "CONFIG") = Returns config →
  match truthy (environ !! "API_CLASS") with
  | Some api => Factory_create config api
  | None => API_new config
  end = Returns instance →
  truthy (environ !! "EXTENSIONS") = None →
  let once := start API_read API_new Factory_create Factory_get strip environ s in
  let twice :=
    start API_read API_new Factory_create Factory_get strip environ once.2 in
  twice.1 = Returns tt
  ∧ included (app twice.2)
    = included (app s) ++ registered config ++ registered config
  ∧ (registered config ≠ [] → ¬ NoDup (included (app twice.2))).
Proof.
  intros Hread Hnew Hext once twice. subst once twice.
  rewrite !(start_run _ _ _ _ _ environ config instance) by done.
  rewrite Hext. simpl. split_and!; [done | by rewrite <- app_assoc |].
  intros Hne Hnd. rewrite <- app_assoc in Hnd.
  apply NoDup_app in Hnd as (_ & _ & Hnd).
  apply NoDup_app in Hnd as (_ & Hdisj & _).
  destruct (registered config) as [|r rs]; [done|].
  apply (Hdisj r); apply list_elem_of_here.
Qed.

End Lifecycle.

(** X15. [API_CLASS] selects the constructor. Unset or empty, the
    instance comes from [API(config)] and [Factory.create] plays no part;
    set to a non-empty name, it comes from [Factory.create(config, name)]
    and [API(config)] plays no part. What the selected constructor
    returns is what startup stores in [INSTANCE]; when it raises, startup
    raises the same and changes nothing. *)
Theorem API_CLASS_selects_constructor {Settings API : Type}
    (API_read : option string → outcome (gmap string Settings))
    (API_new API_new' : gmap string Settings → outcome API)
    (Factory_create Factory_create' : gmap string Settings → string → outcome API)
    Factory_get strip (environ : gmap string string) (s : @State API) :
  ((truthy (environ !! "API_CLASS") = None →
    start API_read API_new Factory_create Factory_get strip environ s
    = start API_read API_new Factory_create' Factory_get strip environ s)
   ∧ (truthy (environ !! "API_CLASS") ≠ None →
      start API_read API_new Factory_create Factory_get strip environ s
      = start API_read API_new' Factory_create Factory_get strip environ s))
  ∧ (∀ config,
       API_read (environ !! "CONFIG") = Returns config →
       let selected :=
         match environ !! "API_CLASS" with
         | Some api => if decide (api = "") then API_new config
                       else Factory_create config api
         | None => API_new config
         end in
       match selected with
       | Returns instance =>
           INSTANCE (start API_read API_new Factory_create Factory_get strip
                       environ s).2 = Some instance
       | Raises e =>
           start API_read API_new Factory_create Factory_get strip environ s
           = (Raises e, s)
       end).
Proof.
  split.
  - unfold start. split; intros Hapi.
    + by rewrite Hapi.
    + by destruct (truthy (environ !! "API_CLASS")).
  - intros config Hread selected.
    assert (Hsel : selected
                   = match truthy (environ !! "API_CLASS") with
                     | Some api => Factory_create config api
                     | None => API_new config
                     end).
    { subst selected. unfold truthy.
      destruct (environ !! "API_CLASS") as [api|]; [|done]. by case_decide. }
    destruct selected as [instance|e].
    + rewrite (start_run _ _ _ _ _ environ config instance) by done.
      destruct (truthy (environ !! "EXTENSIONS")) as [extensions|]; [|done].
      by rewrite run_extensions_INSTANCE.
    + unfold start, bind, lift. by rewrite Hread, <- Hsel.
Qed.

(** *** Runs on the test doubles *)

(** X2: a key of no router ([path]) and other settings change nothing. *)
Lemma registered_ignores_other_keys_witness :
  registered ({["embeddings" := tt; "path" := tt]} : gmap string unit)
  = registered ({["embeddings" := "index"]} : gmap string string).
Proof.
  apply registered_ignores_other_keys.
  apply Forall_forall.
  apply (bool_decide_unpack _). by vm_compute.
Defined.

(** X3: adding embeddings to a cluster configuration keeps the embeddings
    router. *)
Lemma registered_monotone_witness :
  embeddings_router
  ∈ registered ({["cluster" := tt; "embeddings" := tt]} : gmap string unit).
Proof.
  apply (registered_monotone ({["cluster" := tt]} : gmap string unit)).
  - apply (bool_decide_unpack _). by vm_compute.
  - apply (bool_decide_unpack _). by vm_compute.
Defined.

(** X4: the configuration declaring every name gets the whole table. *)
Lemma registered_at_most_all_witness :
  registered Doubles.everything = routers.*2.
Proof.
  apply (proj2 (registered_at_most_all Doubles.everything)).
  intros r. apply (bool_decide_unpack _). by destruct r; vm_compute.
Defined.

(** X5: nothing is added to {embeddings, similarity}. *)
Lemma resolve_adds_at_most_two_witness :
  resolve {["embeddings"; "similarity"]} = {["embeddings"; "similarity"]}.
Proof.
  apply (proj2 (proj2 (resolve_adds_at_most_two {["embeddings"; "similarity"]}))).
  split; intros _; apply (bool_decide_unpack _); by vm_compute.
Defined.

(** X6: {cluster} against {cluster, embeddings}. *)
Lemma resolve_monotone_witness :
  resolve {["cluster"]} ⊆ resolve {["cluster"; "embeddings"]}.
Proof.
  apply resolve_monotone. apply (bool_decide_unpack _). by vm_compute.
Defined.

(** X9: [a] runs, [x] raises in its call, [b] is not reached. *)
Lemma first_failure_stops_loop_witness :
  run_extensions (API := unit) Doubles.Factory_get_broken Doubles.strip
    ["a"; "x"; "b"] boot
  = (Raises (PyError "RuntimeError" "broken extension"),
     {| INSTANCE := None;
        app := mkFastAPI [workflow_router];
        trace := [ Resolved "a"; Instantiated "a"; Invoked "a" (mkFastAPI []);
                   Resolved "x"; Instantiated "x" ] |}).
Proof.
  apply (first_failure_stops_loop Doubles.Factory_get_broken Doubles.strip
           ["a"] "x" ["b"] boot
           {| INSTANCE := None;
              app := mkFastAPI [workflow_router];
              trace := [ Resolved "a"; Instantiated "a";
                         Invoked "a" (mkFastAPI []) ] |});
    by vm_compute.
Defined.

(** X10: one comma, two pieces, six steps. *)
Lemma every_piece_is_processed_witness :
  let s' := (run_extensions (API := unit) Doubles.Factory_get Doubles.strip
               (split ","%char "a, b") boot).2 in
  length (trace s') = 6 ∧ Resolved "b" ∈ trace s'.
Proof.
  intros s'.
  destruct (every_piece_is_processed Doubles.Factory_get Doubles.strip
              "a, b" boot s') as [Hlen Hall]; [by vm_compute|].
  split; [exact Hlen|].
  apply (Hall " b"). apply (bool_decide_unpack _). by vm_compute.
Defined.

(** X11: [EXTENSIONS] set to the empty string. *)
Lemma start_without_EXTENSIONS_witness :
  start Doubles.API_read Doubles.API_new Doubles.Factory_create
    Doubles.Factory_get Doubles.strip {["EXTENSIONS" := ""]} boot
  = (Returns tt,
     {| INSTANCE := Some Doubles.settings;
        app := mkFastAPI ([] ++ registered Doubles.settings);
        trace := [] |}).
Proof.
  apply (start_without_EXTENSIONS Doubles.API_read Doubles.API_new
           Doubles.Factory_create Doubles.Factory_get Doubles.strip
           {["EXTENSIONS" := ""]} Doubles.settings Doubles.settings boot);
    [vm_compute; reflexivity | vm_compute; reflexivity | right; vm_compute; reflexivity].
Defined.

(** X12: the constructor [API(config)] raises. *)
Lemma start_fails_before_composition_witness :
  start Doubles.API_read Doubles.API_new_fails Doubles.Factory_create
    Doubles.Factory_get Doubles.strip {["EXTENSIONS" := "a"]} boot
  = (Raises (PyError "ImportError" "pipeline dependencies are missing"), boot).
Proof.
  apply (start_fails_before_composition Doubles.API_read Doubles.API_new_fails
           Doubles.Factory_create Doubles.Factory_get Doubles.strip).
  right. exists Doubles.settings. split; vm_compute; reflexivity.
Defined.

(** X13: the extension [x] raises, the instance is there all the same. *)
Lemma instance_outlives_extension_failure_witness :
  let failed :=
    start Doubles.API_read Doubles.API_new Doubles.Factory_create
      Doubles.Factory_get_broken Doubles.strip {["EXTENSIONS" := "a,x,b"]} boot in
  failed.1 = Raises (PyError "RuntimeError" "broken extension")
  ∧ get failed.2 = (Returns (Some Doubles.settings), failed.2).
Proof.
  intros failed. split; [vm_compute; reflexivity|].
  apply (instance_outlives_extension_failure Doubles.API_read Doubles.API_new
           Doubles.Factory_create Doubles.Factory_get_broken Doubles.strip
           {["EXTENSIONS" := "a,x,b"]} Doubles.settings Doubles.settings boot);
    vm_compute; reflexivity.
Defined.

(** X14: two startups on the doubles. *)
Lemma start_twice_includes_twice_witness :
  let once :=
    start Doubles.API_read Doubles.API_new Doubles.Factory_create
      Doubles.Factory_get Doubles.strip ∅ boot in
  let twice :=
    start Doubles.API_read Doubles.API_new Doubles.Factory_create
      Doubles.Factory_get Doubles.strip ∅ once.2 in
  ¬ NoDup (included (app twice.2)).
Proof.
  intros once twice.
  refine (proj2 (proj2 (start_twice_includes_twice Doubles.API_read
           Doubles.API_new Doubles.Factory_create Doubles.Factory_get
           Doubles.strip ∅ Doubles.settings Doubles.settings boot
           _ _ _)) _); [vm_compute; reflexivity .. |].
  apply (bool_decide_unpack _). vm_compute. reflexivity.
Defined.

(** X15: with [API_CLASS] naming a class the instance is the factory's,
    though [API(config)] would raise; with [API_CLASS] empty it is
    [API(config)] that is called, and it raises. *)
Lemma API_CLASS_selects_constructor_witness :
  INSTANCE (start Doubles.API_read Doubles.API_new_fails
              Doubles.Factory_create_named Doubles.Factory_get Doubles.strip
              {["API_CLASS" := "custom.API"; "EXTENSIONS" := "a"]} boot).2
  = Some (<["custom.API" := tt]> Doubles.settings)
  ∧ start Doubles.API_read Doubles.API_new_fails
      Doubles.Factory_create_named Doubles.Factory_get Doubles.strip
      {["API_CLASS" := ""]} boot
    = (Raises (PyError "ImportError" "pipeline dependencies are missing"),
       boot).
Proof.
  split.
  - exact (proj2 (API_CLASS_selects_constructor Doubles.API_read
             Doubles.API_new_fails Doubles.API_new_fails
             Doubles.Factory_create_named Doubles.Factory_create_named
             Doubles.Factory_get Doubles.strip
             {["API_CLASS" := "custom.API"; "EXTENSIONS" := "a"]} boot)
           Doubles.settings eq_refl).
  - exact (proj2 (API_CLASS_selects_constructor Doubles.API_read
             Doubles.API_new_fails Doubles.API_new_fails
             Doubles.Factory_create_named Doubles.Factory_create_named
             Doubles.Factory_get Doubles.strip
             {["API_CLASS" := ""]} boot)
           Doubles.settings eq_refl).
Defined.

End StartupFacts.
